(** * cloudtask.settings: the lazily resolved, cached settings accessor

    A shallow embedding of [src/cloudtask/settings.py].  Python values are an
    inductive type, the accessor object is a record of its instance
    attributes, and every function of the module is a computation in a
    state-and-exception monad over the interpreter state the module can
    observe: the host framework's settings object, the accessor, the calls
    made to the host's [import_string], and the allocator of list objects. *)

From Stdlib Require Import ZArith.
From stdpp Require Import gmap strings list fin_maps.

Open Scope string_scope.
Set Warnings "-register-all".

(** ** Values and exceptions *)

(** The Python values a setting can hold.  A list is a heap object: [addr] is
    its identity, so two lists with the same items need not be the same
    object.  [VObj] stands for any other object (a class, a function, ...),
    named by what the interpreter would print for it. *)
Inductive value : Type :=
  | VNone
  | VBool (b : bool)
  | VInt (z : Z)
  | VStr (s : string)
  | VList (addr : nat) (items : list value)
  | VTuple (items : list value)
  | VObj (name : string).

(** [ImportError cls msg] is an instance of Python's [ImportError] or of a
    subclass of it; [cls] is [e.__class__.__name__] and [msg] is [str(e)].
    [OtherError] is an exception of any other class. *)
Inductive exception : Type :=
  | AttributeError (msg : string)
  | KeyError (key : string)
  | ImportError (cls : string) (msg : string)
  | OtherError (cls : string) (msg : string).

Inductive result (A : Type) : Type :=
  | Ok (a : A)
  | Raise (e : exception).
Arguments Ok {A} a.
Arguments Raise {A} e.

(** ** The accessor object and the interpreter state *)

(** The instance attributes of a [TaskSettings] object.  The four attributes
    assigned in [__init__] are typed fields; [_user_settings] is [None] when
    the attribute has been deleted.  [memo] holds the remaining entries of
    the instance dictionary: the attributes written by [setattr(self, attr,
    val)] in [__getattr__]. *)
Record TaskSettings : Type := mkTaskSettings {
  _user_settings : option (gmap string value);
  defaults : gmap string value;
  import_strings : list string;
  _cached_attrs : gset string;
  memo : gmap string value
}.

(** [settings] is [django.conf.settings], seen as the mapping from each of
    its attributes to the dictionary stored there.  [import_calls] records
    the arguments of the calls made to [import_string], latest first. *)
Record world : Type := mkWorld {
  settings : gmap string (gmap string value);
  task_settings : TaskSettings;
  import_calls : list value;
  next_addr : nat
}.

Definition set_obj (f : TaskSettings → TaskSettings) (w : world) : world :=
  mkWorld (settings w) (f (task_settings w)) (import_calls w) (next_addr w).

Definition set_settings (h : gmap string (gmap string value)) (w : world) : world :=
  mkWorld h (task_settings w) (import_calls w) (next_addr w).

Definition record_call (val : value) (w : world) : world :=
  mkWorld (settings w) (task_settings w) (val :: import_calls w) (next_addr w).

(** ** The monad of the embedding: state that survives an exception *)

Definition M (A : Type) : Type := world → result A * world.

Definition ret {A} (a : A) : M A := fun w => (Ok a, w).
Definition raise {A} (e : exception) : M A := fun w => (Raise e, w).
Definition bind {A B} (m : M A) (k : A → M B) : M B :=
  fun w => match m w with
           | (Ok a, w') => k a w'
           | (Raise e, w') => (Raise e, w')
           end.

#[global] Instance M_ret : MRet M := @ret.
#[global] Instance M_bind : MBind M := fun A B k m => bind m k.

(** ** Module constants *)

Definition DEFAULTS : gmap string value :=
  list_to_map [
    ("DEFAULT_CLIENT_CLASS", VStr "cloudtask.client.BaseTaskClient");
    ("DEFAULT_AUTHENTICATION_CLASS ", VStr "cloudtask.client.BaseAuthenticationClass");
    ("DEFAULT_QUOTE_ID", VNone);
    ("DEFAULT_QUOTE_LOCATION", VNone);
    ("DEFAULT_TASK_HANDLER_ROOT_URL", VStr "");
    ("DEFAULT_TASK_RATE_LIMIT", VInt 10);
    ("DEFAULT_TASK_RATE_INTERVAL", VInt 1);
    ("DEFAULT_TASK_EXECUTE_LOCALLY", VBool false)
  ].

Definition IMPORT_STRINGS : list string :=
  ["DEFAULT_RENDERER_CLASSES"; "DEFAULT_PARSER_CLASSES"].

(** [TaskSettings.__init__(defaults=None, import_strings=None)]: [x or D]
    takes [D] when [x] is [None] or empty. *)
Definition __init__ (defaults : option (gmap string value))
    (import_strings : option (list string)) : TaskSettings :=
  mkTaskSettings
    (Some ∅)
    (match defaults with
     | Some d => if decide (d = ∅) then DEFAULTS else d
     | None => DEFAULTS
     end)
    (match import_strings with
     | Some [] | None => IMPORT_STRINGS
     | Some l => l
     end)
    ∅
    ∅.

(** Names the interpreter finds on the instance or on its class before it
    ever calls [__getattr__]: the four attributes of [__init__], the property,
    the method, and the double-underscore names of every object.  Every other
    name is a setting name: it is an attribute only once [__getattr__] has
    stored it. *)
Definition own_member (attr : string) : bool :=
  bool_decide (attr ∈ ["_user_settings"; "defaults"; "import_strings";
                       "_cached_attrs"; "user_settings"; "reload"])
  || String.prefix "__" attr.

(** ** A concrete process, for the examples

    Two importable classes, every other dotted path missing, and a host whose
    settings override the rate limit under both namespace keys. *)
Definition demo_import_string (val : value) : result value :=
  match val with
  | VStr path =>
      if decide (path = "pkg.A") then Ok (VObj "<class 'pkg.A'>")
      else if decide (path = "pkg.B") then Ok (VObj "<class 'pkg.B'>")
      else Raise (ImportError "ModuleNotFoundError" ("No module named '" ++ path ++ "'"))
  | _ => Raise (AttributeError "object has no attribute 'rsplit'")
  end.

(** Exact on strings, the only values the examples format. *)
Definition demo_format_s (val : value) : string :=
  match val with
  | VStr s => s
  | _ => "<object>"
  end.

Definition rate_limit_50 : gmap string value := {[ "DEFAULT_TASK_RATE_LIMIT" := VInt 50 ]}.
Definition rate_limit_99 : gmap string value := {[ "DEFAULT_TASK_RATE_LIMIT" := VInt 99 ]}.

Definition host_cloud_task : gmap string (gmap string value) :=
  {[ "CLOUD_TASK" := rate_limit_50 ]}.
Definition host_rest_framework : gmap string (gmap string value) :=
  {[ "REST_FRAMEWORK" := rate_limit_50 ]}.
Definition host_both : gmap string (gmap string value) :=
  {[ "CLOUD_TASK" := rate_limit_50; "REST_FRAMEWORK" := rate_limit_50 ]}.

(** An accessor with one import-string setting, a tuple of two dotted
    paths, and one plain setting. *)
Definition demo_defaults : gmap string value :=
  {[ "HANDLERS" := VTuple [VStr "pkg.A"; VStr "pkg.B"]; "LIMIT" := VInt 1 ]}.

Definition demo_accessor : world :=
  mkWorld host_both (__init__ (Some demo_defaults) (Some ["HANDLERS"])) [] 0.

(** A host that overrides, under the key the accessor reads, two of the
    names that are no keys of [DEFAULTS]. *)
Definition host_unknown_overrides : gmap string (gmap string value) :=
  {[ "REST_FRAMEWORK" :=
       {[ "DEFAULT_RENDERER_CLASSES" := VList 7 [VStr "pkg.A"];
          "DEFAULT_AUTHENTICATION_CLASS" := VStr "pkg.B" ]} ]}.

(** A host that overrides the import-string setting of [demo_accessor] with
    a path that does not import. *)
Definition host_missing_handler : gmap string (gmap string value) :=
  {[ "REST_FRAMEWORK" := {[ "HANDLERS" := VStr "pkg.Missing" ]} ]}.

Section Accessor.

(** The host's [django.utils.module_loading.import_string], on any
    argument, and Python's [%s] formatting of a value. *)
Variable import_string : value → result value.
Variable format_s : value → string.

(** *** [import_from_string] *)

Definition import_msg (val : value) (setting_name cls msg : string) : string :=
  "Could not import '" ++ format_s val ++ "' for Task setting '" ++ setting_name
    ++ "'. " ++ cls ++ ": " ++ msg ++ ".".

Definition call_import_string (val : value) : M value :=
  fun w => (import_string val, record_call val w).

Definition import_from_string (val : value) (setting_name : string) : M value :=
  fun w => match call_import_string val w with
           | (Raise (ImportError cls msg), w') =>
               (Raise (ImportError "ImportError" (import_msg val setting_name cls msg)), w')
           | r => r
           end.

(** *** [perform_import] *)

(** The list comprehension: items are imported from left to right and the
    first exception ends it. *)
Fixpoint import_items (items : list value) (setting_name : string) : M (list value) :=
  match items with
  | [] => mret []
  | item :: rest =>
      x ← import_from_string item setting_name;
      xs ← import_items rest setting_name;
      mret (x :: xs)
  end.

(** A list display builds a new list object. *)
Definition new_list (items : list value) : M value :=
  fun w => (Ok (VList (next_addr w) items),
            mkWorld (settings w) (task_settings w) (import_calls w) (S (next_addr w))).

Definition perform_import (val : value) (setting_name : string) : M value :=
  match val with
  | VNone => mret VNone
  | VStr _ => import_from_string val setting_name
  | VList _ items | VTuple items =>
      xs ← import_items items setting_name; new_list xs
  | _ => mret val
  end.

(** *** The [user_settings] property *)

Definition RecursionError : exception :=
  OtherError "RecursionError" "maximum recursion depth exceeded".

(** [hasattr(self, '_user_settings')] is true while the attribute is set.
    Once it has been deleted the interpreter falls back to
    [__getattr__('_user_settings')]: that raises [AttributeError], so
    [hasattr] is false, unless ['_user_settings'] is itself a key of the
    defaults, in which case [__getattr__] reads the property, the property
    calls [hasattr] again, and the recursion ends in [RecursionError]. *)
Definition hasattr_user_settings : M bool :=
  fun w =>
    let self := task_settings w in
    match _user_settings self with
    | Some _ => (Ok true, w)
    | None =>
        match defaults self !! "_user_settings" with
        | Some _ => (Raise RecursionError, w)
        | None => (Ok false, w)
        end
    end.

(** [self._user_settings = getattr(settings, 'REST_FRAMEWORK', {})] *)
Definition fetch_user_settings : M unit :=
  fun w =>
    let us := default ∅ (settings w !! "REST_FRAMEWORK") in
    (Ok (),
     set_obj (fun o => mkTaskSettings (Some us) (defaults o) (import_strings o)
                                      (_cached_attrs o) (memo o)) w).

(** [return self._user_settings], the attribute being set at that point *)
Definition the_user_settings : M (gmap string value) :=
  fun w => (Ok (default ∅ (_user_settings (task_settings w))), w).

Definition user_settings : M (gmap string value) :=
  present ← hasattr_user_settings;
  (if present : bool then mret () else fetch_user_settings);;
  the_user_settings.

(** *** [TaskSettings.__getattr__] *)

Definition invalid_setting (attr : string) : exception :=
  AttributeError ("Invalid API setting: '" ++ attr ++ "'").

(** [self._cached_attrs.add(attr); setattr(self, attr, val)] *)
Definition cache (attr : string) (val : value) : M unit :=
  fun w => (Ok (),
            set_obj (fun o => mkTaskSettings (_user_settings o) (defaults o) (import_strings o)
                                             ({[attr]} ∪ _cached_attrs o)
                                             (<[attr := val]> (memo o))) w).

Definition __getattr__ (attr : string) : M value :=
  fun w =>
    let self := task_settings w in
    match defaults self !! attr with
    | None => (Raise (invalid_setting attr), w)
    | Some dflt =>
        (us ← user_settings;
         let val := match us !! attr with
                    | Some v => v
                    | None => dflt
                    end in
         val ← (if bool_decide (attr ∈ import_strings self)
                 then perform_import val attr
                 else mret val);
         cache attr val;;
         mret val) w
    end.

(** An attribute read [task_settings.<attr>] of a setting name: an entry of
    the instance dictionary is returned as it is, and only a miss calls
    [__getattr__]. *)
Definition getattribute (attr : string) : M value :=
  fun w => match memo (task_settings w) !! attr with
           | Some v => (Ok v, w)
           | None => __getattr__ attr w
           end.

(** *** [TaskSettings.reload] *)

(** [delattr(self, attr)] for a memoized name; the message is the one of
    CPython 3.11 and later. *)
Definition delattr (attr : string) : M unit :=
  fun w =>
    match memo (task_settings w) !! attr with
    | Some _ =>
        (Ok (),
         set_obj (fun o => mkTaskSettings (_user_settings o) (defaults o) (import_strings o)
                                          (_cached_attrs o) (delete attr (memo o))) w)
    | None =>
        (Raise (AttributeError ("'TaskSettings' object has no attribute '" ++ attr ++ "'")), w)
    end.

Fixpoint delattrs (attrs : list string) : M unit :=
  match attrs with
  | [] => mret ()
  | attr :: rest => delattr attr;; delattrs rest
  end.

(** [self._cached_attrs.clear()] *)
Definition clear_cached_attrs : M unit :=
  fun w =>
    (Ok (),
     set_obj (fun o => mkTaskSettings (_user_settings o) (defaults o) (import_strings o)
                                      ∅ (memo o)) w).

(** [delattr(self, '_user_settings')] *)
Definition del_user_settings : M unit :=
  fun w =>
    (Ok (),
     set_obj (fun o => mkTaskSettings None (defaults o) (import_strings o)
                                      (_cached_attrs o) (memo o)) w).

(** The loop visits the set in the order of [elements]; the order only
    matters for which attributes are already gone when a [delattr] raises. *)
Definition del_cached_attrs : M unit :=
  fun w => delattrs (elements (_cached_attrs (task_settings w))) w.

Definition reload : M unit :=
  del_cached_attrs;;
  clear_cached_attrs;;
  present ← hasattr_user_settings;
  if present : bool then del_user_settings else mret ().

(** *** The signal receiver [reload_task_settings]

    It reads its keyword arguments only; [kwargs] maps each keyword to its
    value. *)

Definition reload_task_settings (kwargs : gmap string value) : M unit :=
  match kwargs !! "setting" with
  | None => raise (KeyError "setting")
  | Some (VStr setting) => if decide (setting = "CLOUD_TASK") then reload else mret ()
  | Some _ => mret ()
  end.

(** ** The module at load time and what can happen to it *)

(** An accessor just built by [TaskSettings(defaults=d, import_strings=i)],
    in a process whose host settings are [host]. *)
Definition constructed (host : gmap string (gmap string value))
    (d : option (gmap string value)) (i : option (list string)) : world :=
  mkWorld host (__init__ d i) [] 0.

(** [task_settings = TaskSettings(defaults=DEFAULTS, import_strings=IMPORT_STRINGS)] *)
Definition module_loaded (host : gmap string (gmap string value)) : world :=
  constructed host (Some DEFAULTS) (Some IMPORT_STRINGS).

(** What the rest of the process can do to the accessor: read a setting
    name, read the [user_settings] property, call [reload], send the
    [setting_changed] signal, or assign or delete an attribute of the host
    settings. *)
Inductive event : Type :=
  | Read (attr : string)
  | UserSettings
  | Reload
  | SettingChanged (kwargs : gmap string value)
  | Configure (key : string) (v : option (gmap string value)).

(** One event; an exception raised by a read or a call is the caller's to
    handle and leaves the state as the raising code left it. *)
Definition step (w : world) (e : event) : world :=
  match e with
  | Read attr => (getattribute attr w).2
  | UserSettings => (user_settings w).2
  | Reload => (reload w).2
  | SettingChanged kwargs => (reload_task_settings kwargs w).2
  | Configure key (Some d) => set_settings (<[key := d]> (settings w)) w
  | Configure key None => set_settings (delete key (settings w)) w
  end.

Definition run (evs : list event) (w : world) : world := foldl step w evs.

(** Events that are no invalidation: no [reload], and no signal naming the
    key the receiver compares with. *)
Definition quiet_event (e : event) : bool :=
  match e with
  | Reload => false
  | SettingChanged kwargs =>
      match kwargs !! "setting" with
      | Some (VStr setting) => negb (bool_decide (setting = "CLOUD_TASK"))
      | _ => true
      end
  | _ => true
  end.

(** The module's accessor after an invalidation, a read of the rate limit
    (the snapshot then comes from [REST_FRAMEWORK], where the host has 50),
    and a change of the host's [REST_FRAMEWORK] entry to 99. *)
Definition rate_limit_cached : world :=
  run [Reload; Read "DEFAULT_TASK_RATE_LIMIT";
       Configure "REST_FRAMEWORK" (Some rate_limit_99)]
      (module_loaded host_rest_framework).

(** What every reachable accessor satisfies: the defaults and the
    import-string names are those of the constructor, the memoized attributes
    are exactly the names in [_cached_attrs], and all of them are keys of the
    defaults. *)
Definition consistent (D : gmap string value) (I : list string) (w : world) : Prop :=
  defaults (task_settings w) = D
  ∧ import_strings (task_settings w) = I
  ∧ dom (memo (task_settings w)) = _cached_attrs (task_settings w)
  ∧ dom (memo (task_settings w)) ⊆ dom D.

(** ** Frame lemmas: what each function leaves alone *)

Ltac unfold_m :=
  unfold mbind, M_bind, bind, mret, M_ret, ret, raise in *.

Lemma import_from_string_frame val name w r w' :
  import_from_string val name w = (r, w') →
  settings w' = settings w ∧ task_settings w' = task_settings w
  ∧ next_addr w' = next_addr w ∧ import_calls w' = val :: import_calls w.
Proof.
  unfold import_from_string, call_import_string.
  intros H. destruct (import_string val) as [v|[]]; by inversion H.
Qed.

Lemma import_items_frame items name w r w' :
  import_items items name w = (r, w') →
  settings w' = settings w ∧ task_settings w' = task_settings w.
Proof.
  revert w r w'. induction items as [|item rest IH]; intros w r w' H; simpl in H.
  - unfold_m. by inversion H.
  - unfold_m.
    destruct (import_from_string item name w) as [[x|e] w1] eqn:E1;
      apply import_from_string_frame in E1 as (E1 & E2 & _).
    + destruct (import_items rest name w1) as [[xs|e] w2] eqn:E3;
        apply IH in E3 as [? ?]; inversion H; subst; split; congruence.
    + inversion H; subst; eauto.
Qed.

Lemma perform_import_frame val name w r w' :
  perform_import val name w = (r, w') →
  settings w' = settings w ∧ task_settings w' = task_settings w.
Proof.
  assert (Hseq : ∀ items, (xs ← import_items items name; new_list xs) w = (r, w') →
            settings w' = settings w ∧ task_settings w' = task_settings w).
  { intros items H. unfold_m.
    destruct (import_items items name w) as [[xs|e] w1] eqn:E;
      apply import_items_frame in E as [? ?].
    - unfold new_list in H. inversion H; subst; simpl. eauto.
    - inversion H; subst; eauto. }
  destruct val; simpl; intros H; eauto;
    try (unfold_m; by inversion H).
  by apply import_from_string_frame in H as (? & ? & _).
Qed.

Lemma user_settings_cached w us :
  _user_settings (task_settings w) = Some us → user_settings w = (Ok us, w).
Proof.
  intros H. unfold user_settings, hasattr_user_settings, the_user_settings.
  unfold_m. by rewrite H; simpl; rewrite H.
Qed.

Lemma user_settings_fetch w :
  _user_settings (task_settings w) = None →
  defaults (task_settings w) !! "_user_settings" = None →
  user_settings w =
    (Ok (default ∅ (settings w !! "REST_FRAMEWORK")),
     set_obj (fun o => mkTaskSettings (Some (default ∅ (settings w !! "REST_FRAMEWORK")))
                         (defaults o) (import_strings o) (_cached_attrs o) (memo o)) w).
Proof.
  intros H1 H2. unfold user_settings, hasattr_user_settings, the_user_settings.
  unfold_m. by rewrite H1, H2.
Qed.

Lemma user_settings_frame w r w' :
  user_settings w = (r, w') →
  settings w' = settings w ∧ import_calls w' = import_calls w ∧ next_addr w' = next_addr w
  ∧ defaults (task_settings w') = defaults (task_settings w)
  ∧ import_strings (task_settings w') = import_strings (task_settings w)
  ∧ _cached_attrs (task_settings w') = _cached_attrs (task_settings w)
  ∧ memo (task_settings w') = memo (task_settings w).
Proof.
  unfold user_settings, hasattr_user_settings, the_user_settings, fetch_user_settings.
  unfold_m. intros H.
  destruct (_user_settings (task_settings w)); [by inversion H|].
  destruct (defaults (task_settings w) !! "_user_settings"); by inversion H.
Qed.

(** [__getattr__] either leaves the memoized attributes alone or stores the
    value it returns under the name it was asked for. *)
Lemma getattr_hook_effect attr w r w' :
  __getattr__ attr w = (r, w') →
  settings w' = settings w
  ∧ defaults (task_settings w') = defaults (task_settings w)
  ∧ import_strings (task_settings w') = import_strings (task_settings w)
  ∧ ((memo (task_settings w') = memo (task_settings w)
      ∧ _cached_attrs (task_settings w') = _cached_attrs (task_settings w)
      ∧ ∃ e, r = Raise e)
     ∨ (∃ v, r = Ok v
        ∧ is_Some (defaults (task_settings w) !! attr)
        ∧ memo (task_settings w') = <[attr := v]> (memo (task_settings w))
        ∧ _cached_attrs (task_settings w') = {[attr]} ∪ _cached_attrs (task_settings w))).
Proof.
  unfold __getattr__. intros H.
  destruct (defaults (task_settings w) !! attr) as [dflt|] eqn:ED.
  2:{ inversion H; subst. repeat split; eauto. }
  unfold_m.
  destruct (user_settings w) as [[us|e] w1] eqn:EU;
    apply user_settings_frame in EU as (S1 & _ & _ & D1 & I1 & C1 & M1).
  2:{ inversion H; subst. repeat split; eauto. }
  set (val := match us !! attr with Some v => v | None => dflt end) in *.
  assert (∃ r2 w2, (if bool_decide (attr ∈ import_strings (task_settings w))
                    then perform_import val attr else λ w0, (Ok val, w0)) w1 = (r2, w2)
                   ∧ settings w2 = settings w1 ∧ task_settings w2 = task_settings w1)
    as (r2 & w2 & E2 & S2 & T2).
  { case_bool_decide.
    - destruct (perform_import val attr w1) as [r2 w2] eqn:E.
      exists r2, w2. split; [done|]. by apply perform_import_frame in E.
    - by eexists _, _. }
  rewrite E2 in H. destruct r2 as [v|e].
  - unfold cache in H. inversion H; subst; simpl. rewrite S2, T2.
    repeat split; try done. right. exists v. rewrite M1, C1. eauto.
  - inversion H; subst. rewrite S2, T2. repeat split; eauto.
Qed.

(** ** [reload] on a consistent accessor *)

Lemma delattrs_present attrs w :
  NoDup attrs →
  (∀ a, a ∈ attrs → is_Some (memo (task_settings w) !! a)) →
  ∃ w', delattrs attrs w = (Ok (), w')
    ∧ settings w' = settings w ∧ import_calls w' = import_calls w
    ∧ next_addr w' = next_addr w
    ∧ _user_settings (task_settings w') = _user_settings (task_settings w)
    ∧ defaults (task_settings w') = defaults (task_settings w)
    ∧ import_strings (task_settings w') = import_strings (task_settings w)
    ∧ _cached_attrs (task_settings w') = _cached_attrs (task_settings w)
    ∧ ∀ k, memo (task_settings w') !! k
           = if decide (k ∈ attrs) then None else memo (task_settings w) !! k.
Proof.
  revert w. induction attrs as [|a rest IH]; intros w Hnd Hin.
  - exists w. simpl. unfold_m. repeat split; done.
  - apply NoDup_cons in Hnd as [Ha Hnd].
    destruct (Hin a) as [v Hv]; [by left|].
    simpl. unfold_m. unfold delattr at 1. rewrite Hv.
    set (w1 := set_obj _ w).
    destruct (IH w1 Hnd) as (w' & E & S & C & N & U & D & I & CA & M).
    { intros b Hb. simpl. rewrite lookup_delete_ne; [apply Hin; by right|].
      intros ->. done. }
    exists w'. rewrite E. repeat split; try done.
    intros k. rewrite M. simpl.
    destruct (decide (k = a)) as [->|Hne].
    + rewrite lookup_delete_eq, (decide_True (P := a ∈ a :: rest))
        by apply list_elem_of_here.
      by destruct (decide (a ∈ rest)).
    + rewrite lookup_delete_ne by done.
      destruct (decide (k ∈ rest)) as [Hr|Hr].
      * by rewrite decide_True by (by right).
      * rewrite decide_False; [done|].
        intros [?|?]%elem_of_cons; done.
Qed.

Lemma reload_effect w :
  dom (memo (task_settings w)) = _cached_attrs (task_settings w) →
  ∃ r w', reload w = (r, w')
    ∧ settings w' = settings w ∧ import_calls w' = import_calls w
    ∧ next_addr w' = next_addr w
    ∧ defaults (task_settings w') = defaults (task_settings w)
    ∧ import_strings (task_settings w') = import_strings (task_settings w)
    ∧ _user_settings (task_settings w') = None
    ∧ _cached_attrs (task_settings w') = ∅
    ∧ memo (task_settings w') = ∅
    ∧ (r = Ok ()
       ∨ (r = Raise RecursionError
          ∧ _user_settings (task_settings w) = None
          ∧ is_Some (defaults (task_settings w) !! "_user_settings"))).
Proof.
  intros Hdom.
  destruct (delattrs_present (elements (_cached_attrs (task_settings w))) w)
    as (w1 & E & S & C & N & U & D & I & CA & M).
  { apply NoDup_elements. }
  { intros a Ha. apply elem_of_elements in Ha. rewrite <- Hdom in Ha.
    by apply elem_of_dom. }
  assert (M1 : memo (task_settings w1) = ∅).
  { apply map_eq. intros k. rewrite M, lookup_empty. case_decide as Hk; [done|].
    apply not_elem_of_dom. rewrite Hdom. intros Hk'. apply Hk.
    by apply elem_of_elements. }
  unfold reload, del_cached_attrs. unfold_m. rewrite E.
  unfold clear_cached_attrs, hasattr_user_settings, del_user_settings; simpl.
  rewrite U, D.
  destruct (_user_settings (task_settings w)) as [us|] eqn:EU.
  - eexists _, _. split; [done|]. simpl. rewrite M1. repeat split; eauto.
  - destruct (defaults (task_settings w) !! "_user_settings") eqn:ED.
    + eexists _, _. split; [done|]. simpl. rewrite M1. repeat split; eauto.
    + eexists _, _. split; [done|]. simpl. rewrite M1. repeat split; eauto.
Qed.

(** ** The invariant of reachable states *)

Lemma consistent_constructed host d i :
  consistent (defaults (__init__ d i)) (import_strings (__init__ d i)) (constructed host d i).
Proof.
  unfold consistent; simpl. repeat split; done.
Qed.

Lemma consistent_getattribute D I attr w :
  consistent D I w → consistent D I (getattribute attr w).2.
Proof.
  intros (HD & HI & HC & HM). unfold getattribute.
  destruct (memo (task_settings w) !! attr); [done|].
  destruct (__getattr__ attr w) as [r w'] eqn:E. simpl.
  apply getattr_hook_effect in E
    as (_ & D' & I' & [(M' & C' & _) | (v & _ & Hin & M' & C')]);
    unfold consistent; rewrite D', I'.
  - by rewrite M', C'.
  - rewrite M', C', dom_insert_L, HC. repeat split; try done.
    apply union_least; [|by rewrite <- HC].
    apply singleton_subseteq_l, elem_of_dom. by rewrite <- HD.
Qed.

Lemma consistent_reload D I w :
  consistent D I w → consistent D I (reload w).2.
Proof.
  intros (HD & HI & HC & HM).
  destruct (reload_effect w HC) as (r & w' & E & _ & _ & _ & D' & I' & _ & C' & M' & _).
  rewrite E; simpl. unfold consistent. rewrite D', I', C', M', dom_empty_L.
  repeat split; done.
Qed.

Lemma consistent_step D I w e :
  consistent D I w → consistent D I (step w e).
Proof.
  intros H. destruct e as [attr| | |kwargs|key [d|]]; simpl; try done.
  - by apply consistent_getattribute.
  - destruct (user_settings w) as [r w'] eqn:E; simpl.
    apply user_settings_frame in E as (_ & _ & _ & D' & I' & C' & M').
    destruct H as (HD & HI & HC & HM). unfold consistent.
    by rewrite D', I', C', M'.
  - by apply consistent_reload.
  - unfold reload_task_settings.
    destruct (kwargs !! "setting") as [[]|]; try done.
    case_decide; [by apply consistent_reload | done].
Qed.

Lemma consistent_run D I evs w :
  consistent D I w → consistent D I (run evs w).
Proof.
  revert w. induction evs as [|e evs IH]; intros w H; [done|].
  simpl. apply IH. by apply consistent_step.
Qed.

Lemma reachable_consistent host d i evs :
  consistent (defaults (__init__ d i)) (import_strings (__init__ d i))
             (run evs (constructed host d i)).
Proof. apply consistent_run, consistent_constructed. Qed.

(** ** Unknown settings *)

(** C4. A name that is not a key of the defaults is rejected: [__getattr__]
    raises the unknown-setting error, whose message quotes the name, whatever
    the host settings hold and whatever happened before, and it changes
    nothing; an attribute read of such a setting name therefore fails the
    same way in every state the accessor can reach. *)
Theorem unknown_setting_is_rejected host d i evs attr :
  defaults (__init__ d i) !! attr = None →
  __getattr__ attr (run evs (constructed host d i))
    = (Raise (AttributeError ("Invalid API setting: '" ++ attr ++ "'")),
       run evs (constructed host d i))
  ∧ (own_member attr = false →
     getattribute attr (run evs (constructed host d i))
       = (Raise (AttributeError ("Invalid API setting: '" ++ attr ++ "'")),
          run evs (constructed host d i))).
Proof.
  intros Hnone.
  destruct (reachable_consistent host d i evs) as (HD & _ & _ & HM).
  set (w := run evs (constructed host d i)) in *.
  assert (Hhook : __getattr__ attr w = (Raise (invalid_setting attr), w)).
  { unfold __getattr__. by rewrite HD, Hnone. }
  split; [exact Hhook|]. intros _.
  unfold getattribute.
  destruct (memo (task_settings w) !! attr) as [v|] eqn:Em; [|exact Hhook].
  exfalso. assert (attr ∈ dom (defaults (__init__ d i))) as Hin.
  { apply HM, elem_of_dom. eauto. }
  apply elem_of_dom in Hin as [x Hx]. congruence.
Qed.

(** C10. A read that fails because the name is not a key of the defaults
    leaves the whole state as it was: the memoized attributes, the
    cached-attributes set and the overrides snapshot are the same, and every
    later read behaves as if the failed read had not happened. *)
Theorem failed_read_has_no_effect attr w e w' :
  defaults (task_settings w) !! attr = None →
  getattribute attr w = (Raise e, w') →
  e = invalid_setting attr
  ∧ memo (task_settings w') = memo (task_settings w)
  ∧ _cached_attrs (task_settings w') = _cached_attrs (task_settings w)
  ∧ _user_settings (task_settings w') = _user_settings (task_settings w)
  ∧ w' = w
  ∧ ∀ evs attr', getattribute attr' (run evs w') = getattribute attr' (run evs w).
Proof.
  intros Hnone. unfold getattribute, __getattr__.
  destruct (memo (task_settings w) !! attr); [discriminate|].
  rewrite Hnone. intros H; inversion H; subst. repeat split; done.
Qed.

(** ** Memoization *)

Lemma quiet_step_keeps_memo attr v w e :
  memo (task_settings w) !! attr = Some v →
  quiet_event e = true →
  memo (task_settings (step w e)) !! attr = Some v.
Proof.
  intros Hm Hq. destruct e as [a| | |kwargs|key [d|]]; simpl in *; try done.
  - unfold getattribute.
    destruct (memo (task_settings w) !! a) eqn:Ea; [done|].
    destruct (__getattr__ a w) as [r w'] eqn:E; simpl.
    apply getattr_hook_effect in E
      as (_ & _ & _ & [(M' & _) | (x & _ & _ & M' & _)]); rewrite M'; [done|].
    rewrite lookup_insert_ne; [done|]. intros ->. congruence.
  - destruct (user_settings w) as [r w'] eqn:E; simpl.
    apply user_settings_frame in E as (_ & _ & _ & _ & _ & _ & M'). by rewrite M'.
  - unfold reload_task_settings.
    destruct (kwargs !! "setting") as [[]|]; try done.
    case_decide; [|done]. by case_bool_decide.
Qed.

Lemma quiet_run_keeps_memo attr v evs w :
  memo (task_settings w) !! attr = Some v →
  forallb quiet_event evs = true →
  memo (task_settings (run evs w)) !! attr = Some v.
Proof.
  revert w. induction evs as [|e evs IH]; intros w Hm Hq; [done|].
  simpl in Hq. apply andb_prop in Hq as [He Hq].
  simpl. apply IH; [|done]. by apply quiet_step_keeps_memo.
Qed.

Lemma read_memoizes attr w v w1 :
  getattribute attr w = (Ok v, w1) → memo (task_settings w1) !! attr = Some v.
Proof.
  unfold getattribute.
  destruct (memo (task_settings w) !! attr) eqn:Em.
  - intros H; inversion H; by subst.
  - intros E. apply getattr_hook_effect in E
      as (_ & _ & _ & [(_ & _ & e & He) | (x & Hx & _ & M' & _)]); [done|].
    inversion Hx; subst. rewrite M'. apply lookup_insert_eq.
Qed.

(** C5. Once a read of a setting name has returned a value, every later
    read of it, after any reads, property reads, host changes and signals for
    other keys but before an invalidation, returns that very value (a list
    with the same identity) and changes nothing: no import is called again and
    no new object is built. *)
Theorem memoized_read_is_stable attr w v w1 evs :
  own_member attr = false →
  getattribute attr w = (Ok v, w1) →
  forallb quiet_event evs = true →
  getattribute attr (run evs w1) = (Ok v, run evs w1).
Proof.
  intros _ Hread Hq. apply read_memoizes in Hread.
  unfold getattribute. by rewrite (quiet_run_keeps_memo attr v evs w1 Hread Hq).
Qed.

(** ** Invalidation *)

(** C6. In every state the accessor can reach, [reload] returns nothing and
    does not raise (also when nothing was cached); afterwards no name of the
    cached-attributes set is memoized any more, the set is empty, and the
    overrides snapshot is gone, so that the next use of the overrides reads
    them from the host settings again and keeps what it read.  The defaults
    are assumed not to have a key named like the snapshot attribute. *)
Theorem reload_discards_cache host d i evs :
  defaults (__init__ d i) !! "_user_settings" = None →
  ∃ w',
    reload (run evs (constructed host d i)) = (Ok (), w')
    ∧ (∀ attr, attr ∈ _cached_attrs (task_settings (run evs (constructed host d i))) →
         memo (task_settings w') !! attr = None)
    ∧ memo (task_settings w') = ∅
    ∧ _cached_attrs (task_settings w') = ∅
    ∧ _user_settings (task_settings w') = None
    ∧ defaults (task_settings w') = defaults (__init__ d i)
    ∧ import_strings (task_settings w') = import_strings (__init__ d i)
    ∧ settings w' = settings (run evs (constructed host d i))
    ∧ ∃ w'',
        user_settings w' = (Ok (default ∅ (settings w' !! "REST_FRAMEWORK")), w'')
        ∧ _user_settings (task_settings w'')
          = Some (default ∅ (settings w' !! "REST_FRAMEWORK")).
Proof.
  intros Hkey.
  destruct (reachable_consistent host d i evs) as (HD & HI & HC & _).
  set (w := run evs (constructed host d i)) in *.
  destruct (reload_effect w HC)
    as (r & w' & E & S & _ & _ & D' & I' & U' & C' & M' & [-> | (_ & _ & [x Hx])]).
  2:{ rewrite HD in Hx. congruence. }
  exists w'. split; [done|]. rewrite M', C', U', D', I', HD, HI.
  repeat split; try done.
  eexists. rewrite user_settings_fetch by (try done; by rewrite D', HD).
  split; reflexivity.
Qed.

(** ** Import-string settings *)

Lemma import_from_string_ok val obj name w :
  import_string val = Ok obj →
  import_from_string val name w = (Ok obj, record_call val w).
Proof. intros H. unfold import_from_string, call_import_string. by rewrite H. Qed.

Lemma import_items_ok paths objs name w :
  Forall2 (λ path obj, import_string (VStr path) = Ok obj) paths objs →
  import_items (VStr <$> paths) name w
    = (Ok objs, mkWorld (settings w) (task_settings w)
                        (rev (VStr <$> paths) ++ import_calls w) (next_addr w)).
Proof.
  intros H. revert w. induction H as [|path obj paths objs Hp _ IH]; intros w.
  - by destruct w.
  - simpl. unfold_m. rewrite (import_from_string_ok _ obj) by done.
    rewrite IH. simpl. by rewrite <- app_assoc.
Qed.

Lemma perform_import_sequence paths objs name w :
  Forall2 (λ path obj, import_string (VStr path) = Ok obj) paths objs →
  (xs ← import_items (VStr <$> paths) name; new_list xs) w
    = (Ok (VList (next_addr w) objs),
       mkWorld (settings w) (task_settings w)
               (rev (VStr <$> paths) ++ import_calls w) (S (next_addr w))).
Proof. intros H. unfold_m. by rewrite (import_items_ok paths objs). Qed.

(** C9. A tuple of dotted paths that all import resolves to a list, not a
    tuple: a new list object holding the imported objects in the order of the
    paths, each path imported once, from left to right. *)
Theorem tuple_resolves_to_list paths objs setting_name w :
  Forall2 (λ path obj, import_string (VStr path) = Ok obj) paths objs →
  perform_import (VTuple (VStr <$> paths)) setting_name w
    = (Ok (VList (next_addr w) objs),
       mkWorld (settings w) (task_settings w)
               (rev (VStr <$> paths) ++ import_calls w) (S (next_addr w))).
Proof. intros H. simpl. by apply perform_import_sequence. Qed.

(** [__getattr__] for a key of the defaults, once the overrides are known. *)
Lemma getattr_hook_known attr w dflt us w1 :
  defaults (task_settings w) !! attr = Some dflt →
  user_settings w = (Ok us, w1) →
  __getattr__ attr w
  = (val ← (if bool_decide (attr ∈ import_strings (task_settings w))
             then perform_import (default dflt (us !! attr)) attr
             else mret (default dflt (us !! attr)));
     cache attr val;; mret val) w1.
Proof.
  intros Hd Hu. unfold __getattr__. rewrite Hd. unfold_m. rewrite Hu.
  by destruct (us !! attr).
Qed.

(** C7. For a key of the defaults registered as an import string, the value
    looked up (the override if there is one, else the default) is resolved
    like this: [None] stays [None]; a string becomes the object its dotted
    path imports; a list or tuple of strings becomes the list of the imported
    objects, in the same order. *)
Theorem import_string_setting_is_resolved attr w dflt us w1 :
  defaults (task_settings w) !! attr = Some dflt →
  attr ∈ import_strings (task_settings w) →
  user_settings w = (Ok us, w1) →
  (default dflt (us !! attr) = VNone → (__getattr__ attr w).1 = Ok VNone)
  ∧ (∀ path obj,
       default dflt (us !! attr) = VStr path →
       import_string (VStr path) = Ok obj →
       (__getattr__ attr w).1 = Ok obj)
  ∧ (∀ paths objs,
       (∃ addr, default dflt (us !! attr) = VList addr (VStr <$> paths))
       ∨ default dflt (us !! attr) = VTuple (VStr <$> paths) →
       Forall2 (λ path obj, import_string (VStr path) = Ok obj) paths objs →
       ∃ addr', (__getattr__ attr w).1 = Ok (VList addr' objs)).
Proof.
  intros Hd Hi Hu. rewrite (getattr_hook_known attr w dflt us w1 Hd Hu).
  rewrite bool_decide_eq_true_2 by done.
  repeat split.
  - intros ->. done.
  - intros path obj -> Hp. unfold_m. simpl.
    by rewrite (import_from_string_ok _ obj).
  - intros paths objs Hv Hp. exists (next_addr w1).
    unfold_m.
    assert (perform_import (default dflt (us !! attr)) attr w1
            = (Ok (VList (next_addr w1) objs),
               mkWorld (settings w1) (task_settings w1)
                       (rev (VStr <$> paths) ++ import_calls w1) (S (next_addr w1)))) as ->.
    { destruct Hv as [[addr ->] | ->]; simpl; by apply perform_import_sequence. }
    done.
Qed.

(** C8. A dotted path whose import raises an import error makes
    [import_from_string] raise a new import error whose message holds the
    path, the setting name, and the class name and message of the cause.
    Nothing in between handles it: [perform_import] raises it as it is, and so
    does the read of an import-string setting with that value, which calls
    the import once and memoizes nothing. *)
Theorem import_failure_propagates path cls msg :
  (∀ s, format_s (VStr s) = s) →
  import_string (VStr path) = Raise (ImportError cls msg) →
  (∀ setting_name w,
     import_from_string (VStr path) setting_name w
     = (Raise (ImportError "ImportError"
                 ("Could not import '" ++ path ++ "' for Task setting '" ++ setting_name
                    ++ "'. " ++ cls ++ ": " ++ msg ++ ".")),
        record_call (VStr path) w)
     ∧ perform_import (VStr path) setting_name w
       = import_from_string (VStr path) setting_name w)
  ∧ (∀ attr w dflt us w1,
       defaults (task_settings w) !! attr = Some dflt →
       attr ∈ import_strings (task_settings w) →
       user_settings w = (Ok us, w1) →
       default dflt (us !! attr) = VStr path →
       __getattr__ attr w
       = (Raise (ImportError "ImportError"
                   ("Could not import '" ++ path ++ "' for Task setting '" ++ attr
                      ++ "'. " ++ cls ++ ": " ++ msg ++ ".")),
          record_call (VStr path) w1)).
Proof.
  intros Hfmt Himp.
  assert (Hfrom : ∀ name w,
            import_from_string (VStr path) name w
            = (Raise (ImportError "ImportError"
                        ("Could not import '" ++ path ++ "' for Task setting '" ++ name
                           ++ "'. " ++ cls ++ ": " ++ msg ++ ".")),
               record_call (VStr path) w)).
  { intros name w. unfold import_from_string, call_import_string, import_msg.
    by rewrite Himp, Hfmt. }
  split; [intros name w; split; [apply Hfrom | done]|].
  intros attr w dflt us w1 Hd Hi Hu Hv.
  rewrite (getattr_hook_known attr w dflt us w1 Hd Hu).
  rewrite bool_decide_eq_true_2 by done. rewrite Hv. unfold_m. simpl.
  by rewrite Hfrom.
Qed.

(** ** The overrides of the host: where the code departs from its documentation *)

(** C1. On the accessor the module builds, the first read of the rate limit
    returns the default 10 whatever the host settings hold: [__init__] has
    already set [_user_settings] to an empty dictionary, so the property never
    looks at the host.  After an invalidation an override under [CLOUD_TASK]
    is still not seen, since the property reads [REST_FRAMEWORK]; only an
    override stored there is returned. *)
Theorem first_read_ignores_host_overrides :
  (∀ host, (getattribute "DEFAULT_TASK_RATE_LIMIT" (module_loaded host)).1 = Ok (VInt 10))
  ∧ (getattribute "DEFAULT_TASK_RATE_LIMIT" (module_loaded host_both)).1 = Ok (VInt 10)
  ∧ (getattribute "DEFAULT_TASK_RATE_LIMIT"
       (run [Reload] (module_loaded host_cloud_task))).1 = Ok (VInt 10)
  ∧ (getattribute "DEFAULT_TASK_RATE_LIMIT"
       (run [Reload] (module_loaded host_rest_framework))).1 = Ok (VInt 50).
Proof. repeat split; intros; reflexivity. Qed.

(** C2. The first use of the overrides on the accessor the module builds
    returns the empty dictionary of [__init__] and reads nothing from the
    host; after an invalidation the snapshot is read from the host's
    [REST_FRAMEWORK] attribute, so overrides under [CLOUD_TASK] are never
    fetched. *)
Theorem first_access_fetches_nothing :
  (∀ host, user_settings (module_loaded host) = (Ok ∅, module_loaded host))
  ∧ (∀ host, (user_settings (run [Reload] (module_loaded host))).1
             = Ok (default ∅ (host !! "REST_FRAMEWORK")))
  ∧ (user_settings (run [Reload] (module_loaded host_cloud_task))).1 = Ok ∅.
Proof. repeat split; intros; reflexivity. Qed.

(** C3. With the rate limit cached from the host's [REST_FRAMEWORK] entry and
    that entry changed since, a signal naming [REST_FRAMEWORK], the key the
    overrides are read from, changes nothing and the stale 50 is still read;
    a signal naming [CLOUD_TASK], another key, does invalidate, and the read
    then returns the new 99. *)
Theorem signal_key_is_not_the_key_read :
  (getattribute "DEFAULT_TASK_RATE_LIMIT" rate_limit_cached).1 = Ok (VInt 50)
  ∧ reload_task_settings {[ "setting" := VStr "REST_FRAMEWORK" ]} rate_limit_cached
    = (Ok (), rate_limit_cached)
  ∧ (getattribute "DEFAULT_TASK_RATE_LIMIT"
       (step rate_limit_cached (SettingChanged {[ "setting" := VStr "REST_FRAMEWORK" ]}))).1
    = Ok (VInt 50)
  ∧ (getattribute "DEFAULT_TASK_RATE_LIMIT"
       (step rate_limit_cached (SettingChanged {[ "setting" := VStr "CLOUD_TASK" ]}))).1
    = Ok (VInt 99).
Proof. repeat split; reflexivity. Qed.

(** ** Further properties of the accessor *)

(** *** Construction *)

(** X1. [__init__] never builds an accessor with empty defaults or without
    import-string names: an empty argument is replaced like a missing one, by
    the module constant, and a non-empty one is kept.  The accessor starts
    with an empty overrides dictionary already set and nothing memoized. *)
Theorem init_replaces_empty_arguments d i :
  defaults (__init__ d i) ≠ ∅
  ∧ import_strings (__init__ d i) ≠ []
  ∧ __init__ (Some ∅) i = __init__ None i
  ∧ __init__ d (Some []) = __init__ d None
  ∧ (∀ d', d' ≠ ∅ → defaults (__init__ (Some d') i) = d')
  ∧ (∀ i', i' ≠ [] → import_strings (__init__ d (Some i')) = i')
  ∧ _user_settings (__init__ d i) = Some ∅
  ∧ _cached_attrs (__init__ d i) = ∅
  ∧ memo (__init__ d i) = ∅.
Proof.
  assert (HD : DEFAULTS ≠ ∅).
  { intros H. assert (DEFAULTS !! "DEFAULT_QUOTE_ID" = None) as Hl by (by rewrite H).
    discriminate Hl. }
  split; [|split; [|split; [|split; [|split; [|split]]]]]; try done.
  - destruct d as [d|]; simpl; [|done]. by case_decide.
  - by destruct i as [[|]|].
  - intros d' Hd'. simpl. by case_decide.
  - intros i' Hi'. simpl. by destruct i'.
Qed.

(** *** The invariant, as a user sees it *)

(** X2. In every state the accessor can reach, the defaults and the
    import-string names are still those of the constructor, the names in
    [_cached_attrs] are exactly the memoized attributes, and only keys of the
    defaults are memoized. *)
Theorem reachable_cache_invariant host d i evs :
  defaults (task_settings (run evs (constructed host d i))) = defaults (__init__ d i)
  ∧ import_strings (task_settings (run evs (constructed host d i)))
    = import_strings (__init__ d i)
  ∧ (∀ attr, attr ∈ _cached_attrs (task_settings (run evs (constructed host d i)))
             ↔ is_Some (memo (task_settings (run evs (constructed host d i))) !! attr))
  ∧ (∀ attr, is_Some (memo (task_settings (run evs (constructed host d i))) !! attr) →
             is_Some (defaults (__init__ d i) !! attr)).
Proof.
  destruct (reachable_consistent host d i evs) as (HD & HI & HC & HM).
  split; [done|]. split; [done|]. split.
  - intros attr. by rewrite <- HC, elem_of_dom.
  - intros attr Hm. apply elem_of_dom, HM, elem_of_dom, Hm.
Qed.

(** *** Reads that fail *)

(** X3. A read that raises, whatever the exception, memoizes nothing: the
    memoized attributes and the cached-attributes set are unchanged, the name
    is still not an attribute, and the next read of it goes through
    [__getattr__] again. *)
Theorem failed_read_memoizes_nothing attr w e w' :
  getattribute attr w = (Raise e, w') →
  memo (task_settings w') = memo (task_settings w)
  ∧ _cached_attrs (task_settings w') = _cached_attrs (task_settings w)
  ∧ defaults (task_settings w') = defaults (task_settings w)
  ∧ settings w' = settings w
  ∧ memo (task_settings w') !! attr = None
  ∧ getattribute attr w' = __getattr__ attr w'.
Proof.
  unfold getattribute at 1.
  destruct (memo (task_settings w) !! attr) eqn:Em; [discriminate|].
  intros E. apply getattr_hook_effect in E
    as (S & D & _ & [(M & C & _) | (v & Hv & _)]); [|discriminate].
  assert (memo (task_settings w') !! attr = None) as Hnone by (by rewrite M).
  repeat split; try done. unfold getattribute. by rewrite Hnone.
Qed.

(** *** Imports that fail *)

(** X4. Only import errors are rewritten.  Any other exception of
    [import_string] leaves [import_from_string] as it is, after the one call;
    the read of an import-string setting whose value is that string raises it
    unchanged and memoizes nothing. *)
Theorem other_exceptions_pass_unwrapped val e :
  import_string val = Raise e →
  (∀ cls msg, e ≠ ImportError cls msg) →
  (∀ setting_name w,
     import_from_string val setting_name w = (Raise e, record_call val w))
  ∧ (∀ attr w dflt us w1 path,
       val = VStr path →
       defaults (task_settings w) !! attr = Some dflt →
       attr ∈ import_strings (task_settings w) →
       user_settings w = (Ok us, w1) →
       default dflt (us !! attr) = VStr path →
       __getattr__ attr w = (Raise e, record_call val w1)).
Proof.
  intros Himp Hne.
  assert (Hfrom : ∀ name w, import_from_string val name w = (Raise e, record_call val w)).
  { intros name w. unfold import_from_string, call_import_string. rewrite Himp.
    destruct e; try done. by destruct (Hne cls msg). }
  split; [exact Hfrom|].
  intros attr w dflt us w1 path -> Hd Hi Hu Hv.
  rewrite (getattr_hook_known attr w dflt us w1 Hd Hu).
  rewrite bool_decide_eq_true_2 by done. rewrite Hv. unfold_m. simpl.
  by rewrite Hfrom.
Qed.

Lemma import_items_cons item rest name w :
  import_items (item :: rest) name w
  = match import_from_string item name w with
    | (Ok x, w1) =>
        match import_items rest name w1 with
        | (Ok xs, w2) => (Ok (x :: xs), w2)
        | (Raise e, w2) => (Raise e, w2)
        end
    | (Raise e, w1) => (Raise e, w1)
    end.
Proof. reflexivity. Qed.

Lemma import_items_first_failure good objs bad rest e name w :
  Forall2 (λ path obj, import_string (VStr path) = Ok obj) good objs →
  import_from_string bad name (mkWorld (settings w) (task_settings w)
                                       (rev (VStr <$> good) ++ import_calls w) (next_addr w))
  = (Raise e, mkWorld (settings w) (task_settings w)
                      (bad :: rev (VStr <$> good) ++ import_calls w) (next_addr w)) →
  import_items ((VStr <$> good) ++ bad :: rest) name w
  = (Raise e, mkWorld (settings w) (task_settings w)
                      (bad :: rev (VStr <$> good) ++ import_calls w) (next_addr w)).
Proof.
  intros H. revert w. induction H as [|path obj good objs Hp _ IH]; intros w Hbad.
  - rewrite fmap_nil, app_nil_l, import_items_cons.
    destruct w; simpl in *. by rewrite Hbad.
  - rewrite fmap_cons, <- app_comm_cons, import_items_cons.
    rewrite (import_from_string_ok _ obj) by done.
    rewrite fmap_cons in Hbad. simpl rev in Hbad. rewrite <- app_assoc in Hbad.
    rewrite (IH (record_call (VStr path) w) Hbad).
    simpl rev. by rewrite <- app_assoc.
Qed.

(** X5. A list or tuple of dotted paths is imported from left to right up
    to the first path that fails: the read raises the import error of that
    path, the paths after it are never imported, and no list is built. *)
Theorem sequence_import_stops_at_first_failure
    (good : list string) objs (bad : string) (rest : list string) cls msg setting_name w :
  (∀ s, format_s (VStr s) = s) →
  Forall2 (λ path obj, import_string (VStr path) = Ok obj) good objs →
  import_string (VStr bad) = Raise (ImportError cls msg) →
  perform_import (VTuple (VStr <$> (good ++ bad :: rest)%list)) setting_name w
  = (Raise (ImportError "ImportError"
              ("Could not import '" ++ bad ++ "' for Task setting '" ++ setting_name
                 ++ "'. " ++ cls ++ ": " ++ msg ++ ".")),
     mkWorld (settings w) (task_settings w)
             (VStr bad :: rev (VStr <$> good) ++ import_calls w) (next_addr w))
  ∧ ∀ addr,
      perform_import (VList addr (VStr <$> (good ++ bad :: rest)%list)) setting_name w
      = perform_import (VTuple (VStr <$> (good ++ bad :: rest)%list)) setting_name w.
Proof.
  intros Hfmt Hgood Hbad. split; [|done].
  simpl. unfold_m. rewrite fmap_app, fmap_cons.
  rewrite (import_items_first_failure good objs (VStr bad) (VStr <$> rest)
             (ImportError "ImportError"
                ("Could not import '" ++ bad ++ "' for Task setting '" ++ setting_name
                   ++ "'. " ++ cls ++ ": " ++ msg ++ "."))); [done|done|].
  unfold import_from_string, call_import_string, import_msg, record_call; simpl.
  by rewrite Hbad, Hfmt.
Qed.

(** *** The overrides snapshot *)

Lemma getattr_hook_snapshot attr w us r w' :
  _user_settings (task_settings w) = Some us →
  __getattr__ attr w = (r, w') →
  _user_settings (task_settings w') = Some us.
Proof.
  intros Hus. unfold __getattr__.
  destruct (defaults (task_settings w) !! attr) as [dflt|]; [|by intros H; inversion H; subst].
  unfold_m. rewrite (user_settings_cached w us Hus).
  set (val := match us !! attr with Some v => v | None => dflt end).
  destruct ((if bool_decide (attr ∈ import_strings (task_settings w))
             then perform_import val attr else λ w0, (Ok val, w0)) w) as [r2 w2] eqn:E2.
  assert (task_settings w2 = task_settings w) as T2.
  { revert E2. case_bool_decide; intros E2.
    - by apply perform_import_frame in E2 as [_ ?].
    - by inversion E2. }
  destruct r2 as [v|e]; intros H; inversion H; subst; simpl; by rewrite T2.
Qed.

Lemma quiet_step_keeps_snapshot us w e :
  _user_settings (task_settings w) = Some us →
  quiet_event e = true →
  _user_settings (task_settings (step w e)) = Some us.
Proof.
  intros Hus Hq. destruct e as [a| | |kwargs|key [d|]]; simpl in *; try done.
  - unfold getattribute. destruct (memo (task_settings w) !! a); [done|].
    destruct (__getattr__ a w) as [r w'] eqn:E. by apply (getattr_hook_snapshot a w us r w').
  - by rewrite (user_settings_cached w us Hus).
  - unfold reload_task_settings.
    destruct (kwargs !! "setting") as [[]|]; try done.
    case_decide; [|done]. by case_bool_decide.
Qed.

Lemma user_settings_sets_snapshot w us w1 :
  user_settings w = (Ok us, w1) → _user_settings (task_settings w1) = Some us.
Proof.
  unfold user_settings, hasattr_user_settings, the_user_settings, fetch_user_settings.
  unfold_m. destruct (_user_settings (task_settings w)) as [us0|] eqn:E.
  - simpl. rewrite E. intros H; inversion H; by subst.
  - destruct (defaults (task_settings w) !! "_user_settings"); [done|].
    simpl. intros H; inversion H; by subst.
Qed.

(** X6. Once the overrides property has returned a dictionary, it returns
    that same dictionary, and changes nothing, after any reads and any changes
    of the host settings, as long as there is no [reload] and no signal naming
    [CLOUD_TASK]: changes of the host are not seen without an invalidation. *)
Theorem snapshot_is_kept_until_invalidation w us w1 evs :
  user_settings w = (Ok us, w1) →
  forallb quiet_event evs = true →
  user_settings (run evs w1) = (Ok us, run evs w1).
Proof.
  intros Hus Hq. apply user_settings_sets_snapshot in Hus.
  apply user_settings_cached.
  revert w1 Hus Hq. induction evs as [|e evs IH]; intros w1 Hus Hq; [done|].
  simpl in Hq. apply andb_prop in Hq as [He Hq].
  simpl. apply IH; [|done]. by apply quiet_step_keeps_snapshot.
Qed.

(** A computation that neither reads nor writes the host settings. *)
Definition ignores_host {A} (m : M A) : Prop :=
  ∀ h w, m (set_settings h w) = ((m w).1, set_settings h (m w).2).

Lemma bind_ignores_host {A B} (m : M A) (k : A → M B) :
  ignores_host m → (∀ a, ignores_host (k a)) → ignores_host (m ≫= k).
Proof.
  intros Hm Hk h w. unfold_m. rewrite Hm.
  destruct (m w) as [[a|e] w1]; simpl; [apply Hk | done].
Qed.

Lemma import_from_string_ignores_host val name :
  ignores_host (import_from_string val name).
Proof.
  intros h w. unfold import_from_string, call_import_string.
  by destruct (import_string val) as [v|[]].
Qed.

Lemma import_items_ignores_host items name : ignores_host (import_items items name).
Proof.
  induction items as [|item rest IH]; [done|].
  simpl. apply bind_ignores_host; [apply import_from_string_ignores_host|].
  intros x. apply bind_ignores_host; [apply IH | done].
Qed.

Lemma perform_import_ignores_host val name : ignores_host (perform_import val name).
Proof.
  destruct val; simpl; try done.
  - apply import_from_string_ignores_host.
  - apply bind_ignores_host; [apply import_items_ignores_host | done].
  - apply bind_ignores_host; [apply import_items_ignores_host | done].
Qed.

(** X7. While the overrides snapshot is set, a read does not depend on the
    host settings: with any other host settings it returns the same result
    and leaves the same accessor, also for a setting that was never read
    before. *)
Theorem read_uses_snapshot_not_host attr w us h :
  _user_settings (task_settings w) = Some us →
  getattribute attr (set_settings h w)
  = ((getattribute attr w).1, set_settings h (getattribute attr w).2).
Proof.
  intros Hus. unfold getattribute. simpl.
  destruct (memo (task_settings w) !! attr); [done|].
  unfold __getattr__. simpl.
  destruct (defaults (task_settings w) !! attr) as [dflt|]; [|done].
  unfold_m. rewrite (user_settings_cached w us Hus).
  rewrite (user_settings_cached (set_settings h w) us Hus).
  set (val := match us !! attr with Some v => v | None => dflt end).
  assert (ignores_host (if bool_decide (attr ∈ import_strings (task_settings w))
                        then perform_import val attr else λ w0, (Ok val, w0))) as Hi.
  { case_bool_decide; [apply perform_import_ignores_host | done]. }
  rewrite Hi.
  destruct ((if bool_decide (attr ∈ import_strings (task_settings w))
             then perform_import val attr else λ w0, (Ok val, w0)) w) as [[v|e] w2]; done.
Qed.

(** *** Invalidation and what follows it *)

(** X8. A read that follows [reload] is computed from the host settings of
    that moment: for a key of the defaults that is no import string it
    returns the entry of the host's [REST_FRAMEWORK] dictionary if there is
    one, else the default, and memoizes it. *)
Theorem read_after_reload_uses_current_host host d i evs attr dflt :
  defaults (__init__ d i) !! "_user_settings" = None →
  defaults (__init__ d i) !! attr = Some dflt →
  attr ∉ import_strings (__init__ d i) →
  own_member attr = false →
  ∃ w'',
    getattribute attr (step (run evs (constructed host d i)) Reload)
    = (Ok (default dflt
             (default ∅ (settings (run evs (constructed host d i)) !! "REST_FRAMEWORK")
                !! attr)), w'')
    ∧ memo (task_settings w'') !! attr
      = Some (default dflt
                (default ∅ (settings (run evs (constructed host d i)) !! "REST_FRAMEWORK")
                   !! attr)).
Proof.
  intros Hkey Hd Hi _.
  destruct (reachable_consistent host d i evs) as (HD & HI & HC & _).
  set (w := run evs (constructed host d i)) in *.
  destruct (reload_effect w HC) as (r & w' & E & S & _ & _ & D' & I' & U' & _ & M' & _).
  simpl. rewrite E. simpl. unfold getattribute. rewrite M', lookup_empty.
  assert (defaults (task_settings w') !! attr = Some dflt) as Hd' by (by rewrite D', HD).
  rewrite (getattr_hook_known attr w' dflt _ _ Hd'
             (user_settings_fetch w' U' ltac:(by rewrite D', HD))).
  rewrite bool_decide_eq_false_2 by (by rewrite I', HI).
  unfold_m. unfold cache. simpl. rewrite S.
  eexists. split; [reflexivity|]. simpl. apply lookup_insert_eq.
Qed.

(** X9. [reload] is idempotent on the states the accessor can reach: a
    second [reload] right after the first returns normally and changes
    nothing. *)
Theorem reload_twice_is_reload_once host d i evs :
  defaults (__init__ d i) !! "_user_settings" = None →
  reload (step (run evs (constructed host d i)) Reload)
  = (Ok (), step (run evs (constructed host d i)) Reload).
Proof.
  intros Hkey.
  destruct (reachable_consistent host d i evs) as (HD & _ & HC & _).
  set (w := run evs (constructed host d i)) in *.
  destruct (reload_effect w HC) as (r & w' & E & _ & _ & _ & D' & _ & U' & C' & M' & _).
  simpl. rewrite E. simpl.
  assert (defaults (task_settings w') !! "_user_settings" = None) as Hk
    by (by rewrite D', HD).
  destruct w' as [h [us D I C m] calls n]. simpl in *. subst.
  unfold reload, del_cached_attrs, clear_cached_attrs, hasattr_user_settings.
  unfold_m. simpl. rewrite elements_empty. simpl. by rewrite Hk.
Qed.

(** X10. On the states the accessor can reach the signal receiver never
    raises when the signal carries a [setting] keyword: it returns nothing,
    leaves the state alone unless the value is the string [CLOUD_TASK], and
    then does what [reload] does.  Without the keyword it raises the key
    error and leaves the state alone. *)
Theorem receiver_is_safe host d i evs kwargs :
  defaults (__init__ d i) !! "_user_settings" = None →
  (∀ v, kwargs !! "setting" = Some v →
        ∃ w', reload_task_settings kwargs (run evs (constructed host d i)) = (Ok (), w')
              ∧ (v ≠ VStr "CLOUD_TASK" → w' = run evs (constructed host d i))
              ∧ (v = VStr "CLOUD_TASK" →
                 w' = step (run evs (constructed host d i)) Reload))
  ∧ (kwargs !! "setting" = None →
     reload_task_settings kwargs (run evs (constructed host d i))
     = (Raise (KeyError "setting"), run evs (constructed host d i))).
Proof.
  intros Hkey.
  destruct (reachable_consistent host d i evs) as (HD & _ & HC & _).
  set (w := run evs (constructed host d i)) in *.
  assert (∃ w', reload w = (Ok (), w')) as [wr Er].
  { destruct (reload_effect w HC)
      as (r & w' & E & _ & _ & _ & _ & _ & _ & _ & _ & [-> | (_ & _ & [x Hx])]).
    - by exists w'.
    - rewrite HD in Hx. congruence. }
  split.
  - intros v Hv. unfold reload_task_settings. rewrite Hv.
    destruct v as [| | |s| | |];
      try (exists w; split; [done|]; split; [done|]; intros H; discriminate H).
    case_decide as Hs.
    + subst s. exists wr. split; [done|]. split; [done|].
      intros _. simpl. by rewrite Er.
    + exists w. split; [done|]. split; [done|]. congruence.
  - intros Hnone. unfold reload_task_settings. by rewrite Hnone.
Qed.

(** *** Accessors that never import *)

Lemma step_without_import_keys D I w e :
  consistent D I w →
  (∀ k, k ∈ I → D !! k = None) →
  import_calls (step w e) = import_calls w ∧ next_addr (step w e) = next_addr w.
Proof.
  intros (HD & HI & HC & HM) Hno.
  assert (Hreload : import_calls (reload w).2 = import_calls w
                    ∧ next_addr (reload w).2 = next_addr w).
  { destruct (reload_effect w HC) as (r & w' & E & _ & C & N & _). by rewrite E. }
  destruct e as [attr| | |kwargs|key [h|]]; simpl; try done.
  - unfold getattribute, __getattr__.
    destruct (memo (task_settings w) !! attr); [done|].
    destruct (defaults (task_settings w) !! attr) as [dflt|] eqn:Ed; [|done].
    unfold_m.
    destruct (user_settings w) as [[us|e] w1] eqn:Eu;
      apply user_settings_frame in Eu as (_ & C1 & N1 & _); [|done].
    rewrite bool_decide_eq_false_2; [done|].
    rewrite HI. intros Hin. apply Hno in Hin. rewrite <- HD in Hin. congruence.
  - destruct (user_settings w) as [r w1] eqn:Eu.
    by apply user_settings_frame in Eu as (_ & C1 & N1 & _).
  - unfold reload_task_settings.
    destruct (kwargs !! "setting") as [[]|]; try done.
    by case_decide.
Qed.

(** X11. An accessor none of whose import-string names is a key of its
    defaults never calls [import_string] and never builds a list, whatever is
    read and whatever the host overrides: every setting is returned as it is
    stored.  The accessor of the module is one: its two import-string names
    are no keys of [DEFAULTS]. *)
Theorem no_import_key_no_import host d i evs :
  (∀ k, k ∈ import_strings (__init__ d i) → defaults (__init__ d i) !! k = None) →
  import_calls (run evs (constructed host d i)) = []
  ∧ next_addr (run evs (constructed host d i)) = 0.
Proof.
  intros Hno.
  assert (∀ w, consistent (defaults (__init__ d i)) (import_strings (__init__ d i)) w →
               import_calls (run evs w) = import_calls w
               ∧ next_addr (run evs w) = next_addr w) as Hrun.
  { induction evs as [|e evs IH]; intros w Hw; [done|].
    simpl. destruct (step_without_import_keys _ _ w e Hw Hno) as [<- <-].
    apply IH. by apply consistent_step. }
  apply (Hrun (constructed host d i)), consistent_constructed.
Qed.

End Accessor.

(** ** The theorems at concrete inputs *)

(** The three unknown names on the module's accessor, after an
    invalidation and a read, with overrides for two of them in the host. *)
Lemma unknown_setting_is_rejected_witness :
  (getattribute demo_import_string demo_format_s "DEFAULT_RENDERER_CLASSES"
     (run demo_import_string demo_format_s [Reload; Read "DEFAULT_TASK_RATE_LIMIT"]
          (module_loaded host_unknown_overrides))).1
  = Raise (AttributeError "Invalid API setting: 'DEFAULT_RENDERER_CLASSES'")
  ∧ (getattribute demo_import_string demo_format_s "DEFAULT_PARSER_CLASSES"
       (run demo_import_string demo_format_s [Reload; Read "DEFAULT_TASK_RATE_LIMIT"]
            (module_loaded host_unknown_overrides))).1
    = Raise (AttributeError "Invalid API setting: 'DEFAULT_PARSER_CLASSES'")
  ∧ (getattribute demo_import_string demo_format_s "DEFAULT_AUTHENTICATION_CLASS"
       (run demo_import_string demo_format_s [Reload; Read "DEFAULT_TASK_RATE_LIMIT"]
            (module_loaded host_unknown_overrides))).1
    = Raise (AttributeError "Invalid API setting: 'DEFAULT_AUTHENTICATION_CLASS'").
Proof.
  split; [|split].
  - exact (f_equal fst
             (proj2 (unknown_setting_is_rejected demo_import_string demo_format_s
                       host_unknown_overrides (Some DEFAULTS) (Some IMPORT_STRINGS)
                       [Reload; Read "DEFAULT_TASK_RATE_LIMIT"] "DEFAULT_RENDERER_CLASSES"
                       eq_refl) eq_refl)).
  - exact (f_equal fst
             (proj2 (unknown_setting_is_rejected demo_import_string demo_format_s
                       host_unknown_overrides (Some DEFAULTS) (Some IMPORT_STRINGS)
                       [Reload; Read "DEFAULT_TASK_RATE_LIMIT"] "DEFAULT_PARSER_CLASSES"
                       eq_refl) eq_refl)).
  - exact (f_equal fst
             (proj2 (unknown_setting_is_rejected demo_import_string demo_format_s
                       host_unknown_overrides (Some DEFAULTS) (Some IMPORT_STRINGS)
                       [Reload; Read "DEFAULT_TASK_RATE_LIMIT"] "DEFAULT_AUTHENTICATION_CLASS"
                       eq_refl) eq_refl)).
Defined.

Lemma failed_read_has_no_effect_witness :
  defaults (task_settings (module_loaded host_both)) !! "DEFAULT_AUTHENTICATION_CLASS" = None
  ∧ (getattribute demo_import_string demo_format_s "DEFAULT_AUTHENTICATION_CLASS"
       (module_loaded host_both)).2 = module_loaded host_both
  ∧ getattribute demo_import_string demo_format_s "DEFAULT_TASK_RATE_LIMIT"
      (run demo_import_string demo_format_s [Read "DEFAULT_QUOTE_ID"]
         (getattribute demo_import_string demo_format_s "DEFAULT_AUTHENTICATION_CLASS"
            (module_loaded host_both)).2)
    = getattribute demo_import_string demo_format_s "DEFAULT_TASK_RATE_LIMIT"
        (run demo_import_string demo_format_s [Read "DEFAULT_QUOTE_ID"]
           (module_loaded host_both)).
Proof.
  split; [reflexivity|].
  destruct (failed_read_has_no_effect demo_import_string demo_format_s
              "DEFAULT_AUTHENTICATION_CLASS" (module_loaded host_both)
              (invalid_setting "DEFAULT_AUTHENTICATION_CLASS")
              (getattribute demo_import_string demo_format_s "DEFAULT_AUTHENTICATION_CLASS"
                 (module_loaded host_both)).2
              eq_refl eq_refl) as (_ & _ & _ & _ & Hw & Hlater).
  split; [exact Hw | apply Hlater].
Defined.

(** The tuple setting of [demo_accessor]: the list built by the first read,
    at address 0, is the one read again after other reads, a host change, a
    signal for another key and a property read, and the second read imports
    nothing. *)
Lemma memoized_read_is_stable_witness :
  own_member "HANDLERS" = false
  ∧ getattribute demo_import_string demo_format_s "HANDLERS"
      (run demo_import_string demo_format_s
         [Read "LIMIT"; Configure "REST_FRAMEWORK" (Some rate_limit_99);
          SettingChanged {[ "setting" := VStr "REST_FRAMEWORK" ]}; UserSettings]
         (getattribute demo_import_string demo_format_s "HANDLERS" demo_accessor).2)
    = (Ok (VList 0 [VObj "<class 'pkg.A'>"; VObj "<class 'pkg.B'>"]),
       run demo_import_string demo_format_s
         [Read "LIMIT"; Configure "REST_FRAMEWORK" (Some rate_limit_99);
          SettingChanged {[ "setting" := VStr "REST_FRAMEWORK" ]}; UserSettings]
         (getattribute demo_import_string demo_format_s "HANDLERS" demo_accessor).2).
Proof.
  split; [reflexivity|].
  apply (memoized_read_is_stable demo_import_string demo_format_s "HANDLERS" demo_accessor);
    reflexivity.
Defined.

Lemma reload_discards_cache_witness :
  (∃ w', reload (module_loaded host_both) = (Ok (), w')
         ∧ memo (task_settings w') = ∅
         ∧ _user_settings (task_settings w') = None)
  ∧ (∃ w', reload (run demo_import_string demo_format_s
                       [Reload; Read "DEFAULT_TASK_RATE_LIMIT"; Read "DEFAULT_QUOTE_ID"]
                       (module_loaded host_both)) = (Ok (), w')
           ∧ memo (task_settings w') !! "DEFAULT_TASK_RATE_LIMIT" = None
           ∧ _cached_attrs (task_settings w') = ∅).
Proof.
  split.
  - destruct (reload_discards_cache demo_import_string demo_format_s host_both
                (Some DEFAULTS) (Some IMPORT_STRINGS) [] eq_refl)
      as (w' & E & _ & M & _ & U & _).
    exists w'. split; [exact E | split; [exact M | exact U]].
  - destruct (reload_discards_cache demo_import_string demo_format_s host_both
                (Some DEFAULTS) (Some IMPORT_STRINGS)
                [Reload; Read "DEFAULT_TASK_RATE_LIMIT"; Read "DEFAULT_QUOTE_ID"] eq_refl)
      as (w' & E & Hdel & _ & C & _).
    exists w'. split; [exact E | split; [| exact C]].
    apply Hdel. vm_compute. reflexivity.
Defined.

(** The tuple setting of [demo_accessor] is read as the list of the two
    imported classes. *)
Lemma import_string_setting_is_resolved_witness :
  defaults (task_settings demo_accessor) !! "HANDLERS"
  = Some (VTuple [VStr "pkg.A"; VStr "pkg.B"])
  ∧ "HANDLERS" ∈ import_strings (task_settings demo_accessor)
  ∧ ∃ addr', (__getattr__ demo_import_string demo_format_s "HANDLERS" demo_accessor).1
             = Ok (VList addr' [VObj "<class 'pkg.A'>"; VObj "<class 'pkg.B'>"]).
Proof.
  split; [reflexivity|]. split; [apply list_elem_of_here|].
  apply (proj2 (proj2 (import_string_setting_is_resolved demo_import_string demo_format_s
                         "HANDLERS" demo_accessor
                         (VTuple [VStr "pkg.A"; VStr "pkg.B"]) ∅ demo_accessor
                         eq_refl (list_elem_of_here _ _) eq_refl))
               ["pkg.A"; "pkg.B"]).
  - right. reflexivity.
  - repeat constructor.
Defined.

(** A path the demo importer does not know, as a value of its own and as
    the host's override of the import-string setting, read after an
    invalidation: the read raises, imports once and memoizes nothing. *)
Lemma import_failure_propagates_witness :
  demo_import_string (VStr "pkg.Missing")
  = Raise (ImportError "ModuleNotFoundError" "No module named 'pkg.Missing'")
  ∧ import_from_string demo_import_string demo_format_s (VStr "pkg.Missing") "HANDLERS"
      demo_accessor
    = (Raise (ImportError "ImportError"
                "Could not import 'pkg.Missing' for Task setting 'HANDLERS'. ModuleNotFoundError: No module named 'pkg.Missing'."),
       record_call (VStr "pkg.Missing") demo_accessor)
  ∧ __getattr__ demo_import_string demo_format_s "HANDLERS"
      (run demo_import_string demo_format_s [Reload]
         (constructed host_missing_handler (Some demo_defaults) (Some ["HANDLERS"])))
    = (Raise (ImportError "ImportError"
                "Could not import 'pkg.Missing' for Task setting 'HANDLERS'. ModuleNotFoundError: No module named 'pkg.Missing'."),
       mkWorld host_missing_handler
         (mkTaskSettings (Some {[ "HANDLERS" := VStr "pkg.Missing" ]}) demo_defaults
                         ["HANDLERS"] ∅ ∅)
         [VStr "pkg.Missing"] 0).
Proof.
  split; [reflexivity|]. split.
  - apply (proj1 (import_failure_propagates demo_import_string demo_format_s "pkg.Missing"
                    "ModuleNotFoundError" "No module named 'pkg.Missing'"
                    (λ s, eq_refl) eq_refl)).
  - apply (proj2 (import_failure_propagates demo_import_string demo_format_s "pkg.Missing"
                    "ModuleNotFoundError" "No module named 'pkg.Missing'"
                    (λ s, eq_refl) eq_refl)
             "HANDLERS" _ (VTuple [VStr "pkg.A"; VStr "pkg.B"])
             {[ "HANDLERS" := VStr "pkg.Missing" ]}
             (mkWorld host_missing_handler
                (mkTaskSettings (Some {[ "HANDLERS" := VStr "pkg.Missing" ]}) demo_defaults
                                ["HANDLERS"] ∅ ∅) [] 0)).
    + reflexivity.
    + apply list_elem_of_here.
    + reflexivity.
    + reflexivity.
Defined.

Lemma tuple_resolves_to_list_witness :
  perform_import demo_import_string demo_format_s
    (VTuple [VStr "pkg.A"; VStr "pkg.B"]) "HANDLERS" demo_accessor
  = (Ok (VList 0 [VObj "<class 'pkg.A'>"; VObj "<class 'pkg.B'>"]),
     mkWorld host_both (task_settings demo_accessor) [VStr "pkg.B"; VStr "pkg.A"] 1).
Proof.
  apply (tuple_resolves_to_list demo_import_string demo_format_s
           ["pkg.A"; "pkg.B"] [VObj "<class 'pkg.A'>"; VObj "<class 'pkg.B'>"]
           "HANDLERS" demo_accessor).
  repeat constructor.
Defined.

(** ** Further examples *)

(** What memoization saves: [__getattr__] called twice directly imports
    twice and builds two lists, at addresses 0 and 1. *)
Example hook_called_twice_builds_two_lists :
  (__getattr__ demo_import_string demo_format_s "HANDLERS" demo_accessor).1
  = Ok (VList 0 [VObj "<class 'pkg.A'>"; VObj "<class 'pkg.B'>"])
  ∧ (__getattr__ demo_import_string demo_format_s "HANDLERS"
       (__getattr__ demo_import_string demo_format_s "HANDLERS" demo_accessor).2).1
    = Ok (VList 1 [VObj "<class 'pkg.A'>"; VObj "<class 'pkg.B'>"])
  ∧ import_calls
      (__getattr__ demo_import_string demo_format_s "HANDLERS"
         (__getattr__ demo_import_string demo_format_s "HANDLERS" demo_accessor).2).2
    = [VStr "pkg.B"; VStr "pkg.A"; VStr "pkg.B"; VStr "pkg.A"].
Proof. split; [|split]; reflexivity. Qed.

(** Defaults [{'A': 'x', 'B': 1}] and no override: the reads return the
    defaults. *)
Example plain_defaults_are_read :
  (getattribute demo_import_string demo_format_s "A"
     (constructed ∅ (Some {[ "A" := VStr "x"; "B" := VInt 1 ]}) None)).1 = Ok (VStr "x")
  ∧ (getattribute demo_import_string demo_format_s "B"
       (constructed ∅ (Some {[ "A" := VStr "x"; "B" := VInt 1 ]}) None)).1 = Ok (VInt 1).
Proof. split; reflexivity. Qed.

(** ** The further properties at concrete inputs *)

(** The failing read of the host's override ["pkg.Missing"]: nothing is
    memoized. *)
Lemma failed_read_memoizes_nothing_witness :
  memo (task_settings
          (getattribute demo_import_string demo_format_s "HANDLERS"
             (run demo_import_string demo_format_s [Reload]
                (constructed host_missing_handler (Some demo_defaults)
                   (Some ["HANDLERS"])))).2) !! "HANDLERS" = None
  ∧ import_calls
      (getattribute demo_import_string demo_format_s "HANDLERS"
         (run demo_import_string demo_format_s [Reload]
            (constructed host_missing_handler (Some demo_defaults)
               (Some ["HANDLERS"])))).2 = [VStr "pkg.Missing"].
Proof.
  split; [|reflexivity].
  apply (failed_read_memoizes_nothing demo_import_string demo_format_s "HANDLERS"
           (run demo_import_string demo_format_s [Reload]
              (constructed host_missing_handler (Some demo_defaults) (Some ["HANDLERS"])))
           (ImportError "ImportError"
              "Could not import 'pkg.Missing' for Task setting 'HANDLERS'. ModuleNotFoundError: No module named 'pkg.Missing'.")).
  reflexivity.
Defined.

(** An integer where a dotted path is expected: the importer's own
    exception comes out unchanged. *)
Lemma other_exceptions_pass_unwrapped_witness :
  demo_import_string (VInt 3) = Raise (AttributeError "object has no attribute 'rsplit'")
  ∧ import_from_string demo_import_string demo_format_s (VInt 3) "HANDLERS" demo_accessor
    = (Raise (AttributeError "object has no attribute 'rsplit'"),
       record_call (VInt 3) demo_accessor).
Proof.
  split; [reflexivity|].
  apply (proj1 (other_exceptions_pass_unwrapped demo_import_string demo_format_s (VInt 3)
                  (AttributeError "object has no attribute 'rsplit'") eq_refl
                  (λ cls msg H, eq_ind (AttributeError "object has no attribute 'rsplit'")
                                  (λ e, match e with AttributeError _ => True | _ => False end)
                                  I _ H))).
Defined.

(** Three paths, the second missing: the first is imported, the third is
    not, and no list is built. *)
Lemma sequence_import_stops_at_first_failure_witness :
  perform_import demo_import_string demo_format_s
    (VTuple [VStr "pkg.A"; VStr "pkg.Missing"; VStr "pkg.B"]) "HANDLERS" demo_accessor
  = (Raise (ImportError "ImportError"
              "Could not import 'pkg.Missing' for Task setting 'HANDLERS'. ModuleNotFoundError: No module named 'pkg.Missing'."),
     mkWorld host_both (task_settings demo_accessor)
             [VStr "pkg.Missing"; VStr "pkg.A"] 0).
Proof.
  apply (proj1 (sequence_import_stops_at_first_failure demo_import_string demo_format_s
                  ["pkg.A"] [VObj "<class 'pkg.A'>"] "pkg.Missing" ["pkg.B"]
                  "ModuleNotFoundError" "No module named 'pkg.Missing'"
                  "HANDLERS" demo_accessor (λ s, eq_refl)
                  ltac:(repeat constructor) eq_refl)).
Defined.

(** The empty dictionary of [__init__] stays the snapshot through a read and
    a change of the host settings. *)
Lemma snapshot_is_kept_until_invalidation_witness :
  user_settings
    (run demo_import_string demo_format_s
       [Read "LIMIT"; Configure "REST_FRAMEWORK" (Some rate_limit_99);
        SettingChanged {[ "setting" := VStr "REST_FRAMEWORK" ]}]
       demo_accessor)
  = (Ok ∅,
     run demo_import_string demo_format_s
       [Read "LIMIT"; Configure "REST_FRAMEWORK" (Some rate_limit_99);
        SettingChanged {[ "setting" := VStr "REST_FRAMEWORK" ]}]
       demo_accessor).
Proof.
  apply (snapshot_is_kept_until_invalidation demo_import_string demo_format_s
           demo_accessor ∅ demo_accessor); reflexivity.
Defined.

Lemma read_uses_snapshot_not_host_witness :
  getattribute demo_import_string demo_format_s "HANDLERS"
    (set_settings host_missing_handler demo_accessor)
  = ((getattribute demo_import_string demo_format_s "HANDLERS" demo_accessor).1,
     set_settings host_missing_handler
       (getattribute demo_import_string demo_format_s "HANDLERS" demo_accessor).2).
Proof.
  apply (read_uses_snapshot_not_host demo_import_string demo_format_s "HANDLERS"
           demo_accessor ∅ host_missing_handler eq_refl).
Defined.

Lemma not_an_import_string (attr : string) :
  attr ≠ "DEFAULT_RENDERER_CLASSES" → attr ≠ "DEFAULT_PARSER_CLASSES" →
  attr ∉ IMPORT_STRINGS.
Proof.
  intros H1 H2 Hin. unfold IMPORT_STRINGS in Hin.
  apply elem_of_cons in Hin as [?|Hin]; [done|].
  apply elem_of_cons in Hin as [?|Hin]; [done|].
  by apply elem_of_nil in Hin.
Qed.

(** The module's accessor, the rate limit read once (10, nothing fetched
    yet), then [reload]: the next read returns the host's 50. *)
Lemma read_after_reload_uses_current_host_witness :
  ∃ w'',
    getattribute demo_import_string demo_format_s "DEFAULT_TASK_RATE_LIMIT"
      (step demo_import_string demo_format_s
         (run demo_import_string demo_format_s [Read "DEFAULT_TASK_RATE_LIMIT"]
            (module_loaded host_rest_framework)) Reload)
    = (Ok (VInt 50), w'').
Proof.
  destruct (read_after_reload_uses_current_host demo_import_string demo_format_s
              host_rest_framework (Some DEFAULTS) (Some IMPORT_STRINGS)
              [Read "DEFAULT_TASK_RATE_LIMIT"] "DEFAULT_TASK_RATE_LIMIT" (VInt 10)
              eq_refl eq_refl
              (not_an_import_string "DEFAULT_TASK_RATE_LIMIT"
                 ltac:(discriminate) ltac:(discriminate))
              eq_refl) as (w'' & E & _).
  exists w''. exact E.
Defined.

Lemma reload_twice_is_reload_once_witness :
  reload (step demo_import_string demo_format_s
            (run demo_import_string demo_format_s [Read "DEFAULT_TASK_RATE_LIMIT"]
               (module_loaded host_both)) Reload)
  = (Ok (),
     step demo_import_string demo_format_s
       (run demo_import_string demo_format_s [Read "DEFAULT_TASK_RATE_LIMIT"]
          (module_loaded host_both)) Reload).
Proof.
  apply (reload_twice_is_reload_once demo_import_string demo_format_s host_both
           (Some DEFAULTS) (Some IMPORT_STRINGS) [Read "DEFAULT_TASK_RATE_LIMIT"] eq_refl).
Defined.

(** A signal without the keyword, on the module's accessor with one setting
    memoized. *)
Lemma receiver_is_safe_witness :
  reload_task_settings (∅ : gmap string value)
    (run demo_import_string demo_format_s [Read "DEFAULT_TASK_RATE_LIMIT"]
       (module_loaded host_both))
  = (Raise (KeyError "setting"),
     run demo_import_string demo_format_s [Read "DEFAULT_TASK_RATE_LIMIT"]
       (module_loaded host_both))
  ∧ ∃ w',
      reload_task_settings {[ "setting" := VStr "CLOUD_TASK" ]}
        (run demo_import_string demo_format_s [Read "DEFAULT_TASK_RATE_LIMIT"]
           (module_loaded host_both)) = (Ok (), w').
Proof.
  split.
  - apply (proj2 (receiver_is_safe demo_import_string demo_format_s host_both
                    (Some DEFAULTS) (Some IMPORT_STRINGS)
                    [Read "DEFAULT_TASK_RATE_LIMIT"] (∅ : gmap string value) eq_refl)
             (lookup_empty "setting")).
  - destruct (proj1 (receiver_is_safe demo_import_string demo_format_s host_both
                       (Some DEFAULTS) (Some IMPORT_STRINGS)
                       [Read "DEFAULT_TASK_RATE_LIMIT"]
                       {[ "setting" := VStr "CLOUD_TASK" ]} eq_refl)
                (VStr "CLOUD_TASK") (lookup_singleton_eq _ _)) as (w' & E & _).
    exists w'. exact E.
Defined.

Lemma module_has_no_import_key (k : string) :
  k ∈ IMPORT_STRINGS → DEFAULTS !! k = None.
Proof.
  unfold IMPORT_STRINGS. intros Hin.
  apply elem_of_cons in Hin as [->|Hin]; [reflexivity|].
  apply elem_of_cons in Hin as [->|Hin]; [reflexivity|].
  by apply elem_of_nil in Hin.
Qed.

(** The accessor of the module, with overrides in the host, after an
    invalidation and reads of every kind of default. *)
Lemma no_import_key_no_import_witness :
  import_calls
    (run demo_import_string demo_format_s
       [Reload; Read "DEFAULT_CLIENT_CLASS"; Read "DEFAULT_TASK_RATE_LIMIT";
        Read "DEFAULT_RENDERER_CLASSES"; Read "DEFAULT_QUOTE_ID"]
       (module_loaded host_unknown_overrides)) = [].
Proof.
  apply (proj1 (no_import_key_no_import demo_import_string demo_format_s
                  host_unknown_overrides (Some DEFAULTS) (Some IMPORT_STRINGS)
                  [Reload; Read "DEFAULT_CLIENT_CLASS"; Read "DEFAULT_TASK_RATE_LIMIT";
                   Read "DEFAULT_RENDERER_CLASSES"; Read "DEFAULT_QUOTE_ID"]
                  module_has_no_import_key)).
Defined.
